(** * pip._internal.pyproject: interpretation of a project's pyproject.toml

    A shallow embedding of [src/pip/_internal/pyproject.py]:
    [_is_list_of_str], [make_editable_error], [get_build_system_requires],
    [resolve_pyproject_toml], and [read_pyproject_toml] and
    [load_pyproject_toml] over a file system given as a map, followed by
    the properties of the resolution policy.

    Python values are an inductive type, dictionaries are finite maps with
    string keys, and the two effects of the module (raising an exception,
    logging a warning) are threaded through a small log-and-exception
    monad. *)

From stdpp Require Import gmap strings list fin_maps.

Open Scope string_scope.

#[local] Set Warnings "-register-all".

(** ** Python values *)

(** The values a parsed TOML document is made of, plus [None].  Floats and
    dates are left out: for every operation of this module (the [is None]
    test, [isinstance] against [list] and the string types) they behave as
    [VInt] does. *)
Inductive value : Type :=
| VNone
| VBool (b : bool)
| VInt (z : Z)
| VStr (s : string)
| VList (l : list value)
| VDict (d : gmap string value).

(** [x is None] *)
Definition is_None (v : value) : bool :=
  match v with VNone => true | _ => false end.

(** [bool(x)] *)
Definition truthy (v : value) : bool :=
  match v with
  | VNone => false
  | VBool b => b
  | VInt z => negb (z =? 0)%Z
  | VStr s => negb (String.length s =? 0)%nat
  | VList l => negb (length l =? 0)%nat
  | VDict d => negb (size d =? 0)%nat
  end.

(** [isinstance(item, six.string_types)] *)
Definition is_str (v : value) : bool :=
  match v with VStr _ => true | _ => false end.

(** ** Exceptions, log records and the monad *)

(** The text of a message is one of the module's templates; a constructor
    stands for the template and carries the arguments of its [format]. *)
Inductive message : Type :=
| EditableTemplate (req_name reason : string)   (* make_editable_error *)
| Pep518Template (package reason : string)      (* error_template *)
| DisablingNoSetup                              (* no setup.py *)
| EditableBackendKey (req_name : string)        (* editable, backend key *)
| WarnEditableBackendKey (req_name : string)    (* the logged warning *)
| DisablingBackend (backend : value)            (* backend specified *)
| EditableNoBackendKey (req_name : string).     (* editable, no backend key *)

Inductive exn : Type :=
| InstallationError (m : message)
| AssertionError
| KeyError (k : string)
| TypeError.

Inductive result (A : Type) : Type :=
| Ok (a : A)
| Raise (e : exn).
Arguments Ok {A} a.
Arguments Raise {A} e.

(** A computation yields the warnings it logged, in order, and its
    outcome. *)
Definition M (A : Type) : Type := (list message * result A)%type.

Definition ret {A} (a : A) : M A := ([], Ok a).

Definition raise {A} (e : exn) : M A := ([], Raise e).

Definition bind {A B} (m : M A) (f : A -> M B) : M B :=
  match m with
  | (w, Ok a) => let '(w', r) := f a in ((w ++ w')%list, r)
  | (w, Raise e) => (w, Raise e)
  end.

Notation "x <- m ;; k" := (bind m (fun x => k))
  (at level 100, m at next level, right associativity).
Notation "m ;; k" := (bind m (fun _ => k))
  (at level 100, right associativity).

(** [logger.warning(message)] *)
Definition logger_warning (m : message) : M unit := ([m], Ok tt).

(** [assert c] *)
Definition assert (c : bool) : M unit :=
  if c then ret tt else raise AssertionError.

(** ** Dictionary access *)

(** [key in d] *)
Definition contains (key : string) (d : gmap string value) : bool :=
  bool_decide (is_Some (d !! key)).

(** [d[key]], for [d] a dictionary or [None] *)
Definition getitem (d : option (gmap string value)) (key : string) : M value :=
  match d with
  | None => raise TypeError
  | Some d =>
      match d !! key with
      | Some v => ret v
      | None => raise (KeyError key)
      end
  end.

(** [d.get(key)] *)
Definition dict_get (d : gmap string value) (key : string) : value :=
  default VNone (d !! key).

(** ** The module *)

Definition _is_list_of_str (obj : value) : bool :=
  match obj with
  | VList l => forallb is_str l
  | _ => false
  end.

Definition make_editable_error (req_name reason : string) : exn :=
  InstallationError (EditableTemplate req_name reason).

Definition missing_requires_reason : string :=
  "it has a 'build-system' table but not " ++
  "'build-system.requires' which is mandatory in the table".

Definition not_list_of_str_reason : string :=
  "'build-system.requires' is not a list of strings.".

Definition get_build_system_requires
    (build_system : option (gmap string value)) (req_name : string)
  : M value :=
  match build_system with
  | None => ret VNone
  | Some d =>
      let error_template := Pep518Template in
      if negb (contains "requires" d) then
        raise (InstallationError
                 (error_template req_name missing_requires_reason))
      else
        requires <- getitem build_system "requires" ;;
        if negb (_is_list_of_str requires) then
          raise (InstallationError
                   (error_template req_name not_list_of_str_reason))
        else ret requires
  end.

(** [build_system and "build-backend" in build_system] *)
Definition declares_backend (build_system : option (gmap string value))
  : bool :=
  match build_system with
  | None => false
  | Some d => truthy (VDict d) && contains "build-backend" d
  end.

(** [use_pep517 is not None and not use_pep517] *)
Definition explicitly_disabled (use_pep517 : value) : bool :=
  negb (is_None use_pep517) && negb (truthy use_pep517).

Definition legacy_backend : string := "setuptools.build_meta:__legacy__".

Definition legacy_requires : list string := ["setuptools>=40.8.0"; "wheel"].

(** The [if]/[elif] chain that opens [resolve_pyproject_toml]: it raises,
    or yields the value of [use_pep517] the rest of the function reads. *)
Definition settle_use_pep517
    (build_system : option (gmap string value))
    (has_pyproject has_setup : bool) (use_pep517 : value)
    (editable : bool) (req_name : string) : M value :=
  if editable && truthy use_pep517 then
    raise (make_editable_error
             req_name "PEP 517 processing was explicitly requested")
  else if has_pyproject && negb has_setup then
    if explicitly_disabled use_pep517 then
      raise (InstallationError DisablingNoSetup)
    else if editable then
      raise (make_editable_error
               req_name "it has a pyproject.toml file and no setup.py")
    else ret (VBool true)
  else if declares_backend build_system then
    if editable then
      if is_None use_pep517 then
        raise (InstallationError (EditableBackendKey req_name))
      else
        assert (negb (truthy use_pep517)) ;;
        logger_warning (WarnEditableBackendKey req_name) ;;
        ret use_pep517
    else if explicitly_disabled use_pep517 then
      backend <- getitem build_system "build-backend" ;;
      raise (InstallationError (DisablingBackend backend))
    else ret (VBool true)
  else if is_None use_pep517 then
    if has_pyproject && editable then
      raise (InstallationError (EditableNoBackendKey req_name))
    else ret (VBool has_pyproject)
  else ret use_pep517.

(** What [resolve_pyproject_toml] returns: [(requires, pep517_data)], with
    [pep517_data] either [None] or [(backend, check)]. *)
Definition resolution : Type := (value * option (value * list string))%type.

Definition resolve_pyproject_toml
    (build_system : option (gmap string value))
    (has_pyproject has_setup : bool) (use_pep517 : value)
    (editable : bool) (req_name : string) : M resolution :=
  use_pep517 <- settle_use_pep517 build_system has_pyproject has_setup
                  use_pep517 editable req_name ;;
  assert (negb (is_None use_pep517)) ;;
  requires <- get_build_system_requires build_system req_name ;;
  if negb (truthy use_pep517) then ret (requires, None)
  else
    let '(requires, build_system) :=
      match build_system with
      | None =>
          (VList (VStr <$> legacy_requires),
           Some ({[ "build-backend" := VStr legacy_backend ]}
                   : gmap string value))
      | Some _ => (requires, build_system)
      end in
    match build_system with
    | None => raise AssertionError
    | Some d =>
        let backend := dict_get d "build-backend" in
        let check := [] in
        let '(backend, check) :=
          if is_None backend then (VStr legacy_backend, legacy_requires)
          else (backend, check) in
        ret (requires, Some (backend, check))
    end.

(** ** Derived descriptions of the outcome *)

(** The value of [(backend, check)] once PEP 517 processing is chosen. *)
Definition backend_and_check (build_system : option (gmap string value))
  : value * list string :=
  match build_system with
  | None => (VStr legacy_backend, [])
  | Some d =>
      match d !! "build-backend" with
      | None | Some VNone => (VStr legacy_backend, legacy_requires)
      | Some v => (v, [])
      end
  end.

(** The inputs on which the warning is logged. *)
Definition warns (build_system : option (gmap string value))
    (has_pyproject has_setup : bool) (use_pep517 : value) (editable : bool)
  : bool :=
  editable && explicitly_disabled use_pep517
  && declares_backend build_system && negb (has_pyproject && negb has_setup).

(** ** The file system and the loader *)

(** What the module sees of a regular file: the document [pytoml.load]
    builds from its text, or the fact that [pytoml.load] rejects it. *)
Inductive file : Type :=
| TomlFile (pp_toml : gmap string value)
| OtherFile.

(** [os.path.isfile(path)]: the file system maps the paths of the regular
    files to what they hold. *)
Definition os_path_isfile (fs : gmap string file) (path : string) : bool :=
  bool_decide (is_Some (fs !! path)).

Inductive read_exn : Type :=
| IOError      (* [io.open] finds no file to open *)
| TomlError.   (* [pytoml.load] rejects the text *)

Definition read_pyproject_toml (fs : gmap string file) (path : string)
  : read_exn + value :=
  match fs !! path with
  | None => inl IOError
  | Some OtherFile => inl TomlError
  | Some (TomlFile pp_toml) =>
      let build_system := dict_get pp_toml "build-system" in
      inr build_system
  end.

(** How a call of [load_pyproject_toml] ends: reading the file raised, or
    [resolve_pyproject_toml] was called and ended as [m] tells.  The last
    case is a document whose "build-system" entry is not a table; there
    [resolve_pyproject_toml] is called outside the type its signature
    states, and the call is not followed further. *)
Inductive loaded : Type :=
| Resolved (m : M resolution)
| ReadFailed (e : read_exn)
| NotATable (build_system : value).

Definition load_pyproject_toml (fs : gmap string file)
    (use_pep517 : value) (editable : bool)
    (pyproject_toml setup_py req_name : string) : loaded :=
  let has_pyproject := os_path_isfile fs pyproject_toml in
  let has_setup := os_path_isfile fs setup_py in
  let build_system :=
    if has_pyproject then read_pyproject_toml fs pyproject_toml
    else inr VNone in
  match build_system with
  | inl e => ReadFailed e
  | inr VNone =>
      Resolved (resolve_pyproject_toml None has_pyproject has_setup
                  use_pep517 editable req_name)
  | inr (VDict d) =>
      Resolved (resolve_pyproject_toml (Some d) has_pyproject has_setup
                  use_pep517 editable req_name)
  | inr v => NotATable v
  end.

(** ** Running the model on the scenarios of the documentation *)

Example run_no_pyproject :
  resolve_pyproject_toml None false true VNone false "pkg"
  = ([], Ok (VNone, None)).
Proof. vm_compute. reflexivity. Qed.

Example run_requires_only :
  resolve_pyproject_toml
    (Some {[ "requires" := VList [VStr "foo"] ]}) true true VNone false "pkg"
  = ([], Ok (VList [VStr "foo"],
             Some (VStr legacy_backend, legacy_requires))).
Proof. vm_compute. reflexivity. Qed.

(** ** Basic facts about values and dictionaries *)

Lemma is_None_true (v : value) : is_None v = true <-> v = VNone.
Proof. destruct v; simpl; split; congruence. Qed.

Lemma is_None_not_truthy (v : value) : is_None v = true -> truthy v = false.
Proof. intros H. apply is_None_true in H. subst v. reflexivity. Qed.

Lemma explicitly_disabled_true (v : value) :
  explicitly_disabled v = true <-> v <> VNone /\ truthy v = false.
Proof.
  unfold explicitly_disabled.
  rewrite andb_true_iff, !negb_true_iff.
  split; intros [Hn Ht]; split; try assumption.
  - intros ->. discriminate Hn.
  - destruct v; try reflexivity. contradiction Hn. reflexivity.
Qed.

Lemma contains_true (key : string) (d : gmap string value) :
  contains key d = true <-> is_Some (d !! key).
Proof. unfold contains. apply bool_decide_eq_true. Qed.

Lemma contains_false (key : string) (d : gmap string value) :
  contains key d = false <-> d !! key = None.
Proof.
  unfold contains. rewrite bool_decide_eq_false.
  symmetry. apply eq_None_not_Some.
Qed.

Lemma contains_lookup (key : string) (d : gmap string value) (v : value) :
  d !! key = Some v -> contains key d = true.
Proof. intros H. apply contains_true. exists v. exact H. Qed.

(** A dictionary that holds a key is a true value. *)
Lemma lookup_truthy (key : string) (d : gmap string value) (v : value) :
  d !! key = Some v -> truthy (VDict d) = true.
Proof.
  intros H. simpl. apply negb_true_iff, Nat.eqb_neq.
  intros Hsz. apply map_size_empty_iff in Hsz. subst d.
  rewrite lookup_empty in H. discriminate H.
Qed.

Lemma declares_backend_true (build_system : option (gmap string value)) :
  declares_backend build_system = true
  <-> exists d, build_system = Some d /\ is_Some (d !! "build-backend").
Proof.
  unfold declares_backend. split.
  - destruct build_system as [d|]; [|discriminate].
    intros [_ H]%andb_true_iff. exists d. split; [reflexivity|].
    apply contains_true, H.
  - intros (d & -> & [v Hv]).
    rewrite (lookup_truthy _ _ _ Hv), (contains_lookup _ _ _ Hv). reflexivity.
Qed.

Lemma declares_backend_lookup (d : gmap string value) (v : value) :
  d !! "build-backend" = Some v -> declares_backend (Some d) = true.
Proof. intros H. apply declares_backend_true. eauto. Qed.

Lemma declares_backend_no_key (d : gmap string value) :
  d !! "build-backend" = None -> declares_backend (Some d) = false.
Proof.
  intros H. unfold declares_backend.
  apply contains_false in H. rewrite H. apply andb_false_r.
Qed.

(** [_is_list_of_str] holds of the lists of strings and of nothing else. *)
Lemma forallb_is_str (l : list value) :
  forallb is_str l = true <-> exists strs : list string, l = VStr <$> strs.
Proof.
  induction l as [|v l IH]; simpl.
  - split; [exists []; reflexivity | reflexivity].
  - rewrite andb_true_iff, IH. split.
    + intros [Hv [strs ->]]. destruct v; try discriminate Hv.
      exists (s :: strs). reflexivity.
    + intros [[|s strs] Heq]; [discriminate Heq|].
      injection Heq as -> ->. split; [reflexivity | eauto].
Qed.

Lemma is_list_of_str_iff (obj : value) :
  _is_list_of_str obj = true
  <-> exists strs : list string, obj = VList (VStr <$> strs).
Proof.
  destruct obj; simpl;
    try (split; [discriminate | intros [strs Heq]; discriminate Heq]).
  rewrite forallb_is_str. split.
  - intros [strs ->]. eauto.
  - intros [strs Heq]. injection Heq as ->. eauto.
Qed.

Lemma is_list_of_str_fmap (strs : list string) :
  _is_list_of_str (VList (VStr <$> strs)) = true.
Proof. apply is_list_of_str_iff. eauto. Qed.

(** ** The requirements check *)

Lemma requires_of_None (req_name : string) :
  get_build_system_requires None req_name = ([], Ok VNone).
Proof. reflexivity. Qed.

Lemma requires_missing (d : gmap string value) (req_name : string) :
  d !! "requires" = None ->
  get_build_system_requires (Some d) req_name
  = ([], Raise (InstallationError
                  (Pep518Template req_name missing_requires_reason))).
Proof.
  intros H. unfold get_build_system_requires.
  apply contains_false in H. rewrite H. reflexivity.
Qed.

Lemma requires_found (d : gmap string value) (req_name : string) (v : value) :
  d !! "requires" = Some v ->
  get_build_system_requires (Some d) req_name
  = if _is_list_of_str v then ([], Ok v)
    else ([], Raise (InstallationError
                       (Pep518Template req_name not_list_of_str_reason))).
Proof.
  intros H. unfold get_build_system_requires, getitem.
  rewrite (contains_lookup _ _ _ H), H. simpl.
  destruct (_is_list_of_str v); reflexivity.
Qed.

(** The requirements check logs nothing, and what it returns is [None] or
    a list of strings. *)
Lemma requires_outcome
    (build_system : option (gmap string value)) (req_name : string) :
  exists r, get_build_system_requires build_system req_name = ([], r) /\
    forall v, r = Ok v ->
      (build_system = None /\ v = VNone) \/
      (exists d strs, build_system = Some d /\
         d !! "requires" = Some v /\ v = VList (VStr <$> strs)).
Proof.
  destruct build_system as [d|].
  - destruct (d !! "requires") as [v|] eqn:Hreq.
    + rewrite (requires_found _ _ _ Hreq).
      destruct (_is_list_of_str v) eqn:Hl.
      * eexists. split; [reflexivity|]. intros v' [= <-]. right.
        apply is_list_of_str_iff in Hl as [strs ->]. eauto 6.
      * eexists. split; [reflexivity|]. discriminate.
    + rewrite (requires_missing _ _ Hreq).
      eexists. split; [reflexivity|]. discriminate.
  - eexists. split; [reflexivity|]. intros v [= <-]. left. split; reflexivity.
Qed.

(** ** The decision chain *)

(** The three readings of [use_pep517]: not given, true, or given and
    false. *)
Lemma use_pep517_cases (u : value) :
  (is_None u = true /\ truthy u = false) \/
  (is_None u = false /\ truthy u = true) \/
  (is_None u = false /\ truthy u = false).
Proof.
  destruct (is_None u) eqn:Hn.
  - left. split; [reflexivity | apply is_None_not_truthy, Hn].
  - destruct (truthy u); auto.
Qed.

Ltac split_use_pep517 u :=
  let Hn := fresh "Hnone" in
  let Ht := fresh "Htruthy" in
  destruct (use_pep517_cases u) as [[Hn Ht]|[[Hn Ht]|[Hn Ht]]].

Ltac settle_cases :=
  unfold settle_use_pep517, explicitly_disabled;
  repeat match goal with
    | H : is_None _ = _ |- _ => rewrite !H
    | H : truthy _ = _ |- _ => rewrite !H
    | H : declares_backend _ = _ |- _ => rewrite !H
    | H : _ !! _ = _ |- _ => rewrite !H
    end;
  simpl.

(** With a backend key in the table, indexing it raises nothing. *)
Lemma getitem_declared (build_system : option (gmap string value)) :
  declares_backend build_system = true ->
  exists v, getitem build_system "build-backend" = ([], Ok v).
Proof.
  intros (d & -> & [v Hv])%declares_backend_true.
  exists v. unfold getitem. rewrite Hv. reflexivity.
Qed.

(** The chain never yields [None], and its log is empty or one warning. *)
Lemma settle_outcome
    (build_system : option (gmap string value))
    (has_pyproject has_setup : bool) (use_pep517 : value)
    (editable : bool) (req_name : string) (w : list message) (u : value) :
  settle_use_pep517 build_system has_pyproject has_setup use_pep517
    editable req_name = (w, Ok u) ->
  is_None u = false.
Proof.
  split_use_pep517 use_pep517; settle_cases;
    destruct editable, has_pyproject, has_setup; simpl;
    destruct (declares_backend build_system) eqn:Hdecl; simpl;
    try discriminate;
    try (intros [= <- <-]; first [reflexivity | assumption]).
  all: destruct (getitem_declared _ Hdecl) as [v ->]; discriminate.
Qed.

(** How [resolve_pyproject_toml] goes on from the outcome of the chain. *)
Lemma resolve_raised
    (build_system : option (gmap string value))
    (has_pyproject has_setup : bool) (use_pep517 : value)
    (editable : bool) (req_name : string) (w : list message) (e : exn) :
  settle_use_pep517 build_system has_pyproject has_setup use_pep517
    editable req_name = (w, Raise e) ->
  resolve_pyproject_toml build_system has_pyproject has_setup use_pep517
    editable req_name = (w, Raise e).
Proof. intros H. unfold resolve_pyproject_toml. rewrite H. reflexivity. Qed.

Lemma resolve_settled
    (build_system : option (gmap string value))
    (has_pyproject has_setup : bool) (use_pep517 : value)
    (editable : bool) (req_name : string) (w : list message) (u : value) :
  settle_use_pep517 build_system has_pyproject has_setup use_pep517
    editable req_name = (w, Ok u) ->
  resolve_pyproject_toml build_system has_pyproject has_setup use_pep517
    editable req_name
  = match get_build_system_requires build_system req_name with
    | (_, Raise e) => (w, Raise e)
    | (_, Ok requires) =>
        if truthy u then
          (w, Ok (match build_system with
                  | None => VList (VStr <$> legacy_requires)
                  | Some _ => requires
                  end, Some (backend_and_check build_system)))
        else (w, Ok (requires, None))
    end.
Proof.
  intros H. pose proof (settle_outcome _ _ _ _ _ _ _ _ H) as Hn.
  unfold resolve_pyproject_toml. rewrite H. simpl. rewrite Hn. simpl.
  destruct (requires_outcome build_system req_name) as (r & -> & _).
  destruct r as [requires|e]; simpl; [|by rewrite !app_nil_r].
  destruct (truthy u); simpl; [|by rewrite !app_nil_r].
  destruct build_system as [d|]; simpl.
  - unfold dict_get. destruct (d !! "build-backend") as [[]|]; simpl;
      by rewrite !app_nil_r.
  - unfold dict_get. rewrite lookup_singleton_eq. simpl.
    by rewrite !app_nil_r.
Qed.



(** ** Properties of the requirements check *)

(** C7: [get_build_system_requires] returns [None] for [None]; raises the
    missing-[requires] error for a table without the key; raises the
    not-a-list-of-strings error when the value under the key is anything
    but a list whose elements are all strings; and otherwise returns the
    declared list itself, same elements in the same order. *)
Theorem get_build_system_requires_spec
    (build_system : option (gmap string value)) (req_name : string) :
  (build_system = None ->
   get_build_system_requires build_system req_name = ([], Ok VNone)) /\
  (forall d, build_system = Some d -> d !! "requires" = None ->
   get_build_system_requires build_system req_name
   = ([], Raise (InstallationError
                   (Pep518Template req_name missing_requires_reason)))) /\
  (forall d v, build_system = Some d -> d !! "requires" = Some v ->
   (~ exists strs : list string, v = VList (VStr <$> strs)) ->
   get_build_system_requires build_system req_name
   = ([], Raise (InstallationError
                   (Pep518Template req_name not_list_of_str_reason)))) /\
  (forall d (strs : list string), build_system = Some d ->
   d !! "requires" = Some (VList (VStr <$> strs)) ->
   get_build_system_requires build_system req_name
   = ([], Ok (VList (VStr <$> strs)))).
Proof.
  repeat split.
  - intros ->. apply requires_of_None.
  - intros d -> Hreq. apply requires_missing, Hreq.
  - intros d v -> Hreq Hnot. rewrite (requires_found _ _ _ Hreq).
    destruct (_is_list_of_str v) eqn:Hl; [|reflexivity].
    contradiction Hnot. apply is_list_of_str_iff, Hl.
  - intros d strs -> Hreq. rewrite (requires_found _ _ _ Hreq).
    rewrite is_list_of_str_fmap. reflexivity.
Qed.

Lemma get_build_system_requires_spec_witness :
  get_build_system_requires None "pkg" = ([], Ok VNone) /\
  get_build_system_requires (Some {[ "build-backend" := VStr "pkg:build" ]})
    "pkg"
  = ([], Raise (InstallationError
                  (Pep518Template "pkg" missing_requires_reason))) /\
  get_build_system_requires
    (Some {[ "requires" := VList [VStr "foo"; VInt 3] ]}) "pkg"
  = ([], Raise (InstallationError
                  (Pep518Template "pkg" not_list_of_str_reason))) /\
  get_build_system_requires
    (Some {[ "requires" := VList [VStr "b"; VStr "a"; VStr "b"] ]}) "pkg"
  = ([], Ok (VList [VStr "b"; VStr "a"; VStr "b"])).
Proof.
  split; [|split; [|split]].
  - apply (get_build_system_requires_spec None "pkg"). reflexivity.
  - destruct (get_build_system_requires_spec
                (Some {[ "build-backend" := VStr "pkg:build" ]}) "pkg")
      as (_ & H & _).
    apply (H _ eq_refl). reflexivity.
  - destruct (get_build_system_requires_spec
                (Some {[ "requires" := VList [VStr "foo"; VInt 3] ]}) "pkg")
      as (_ & _ & H & _).
    apply (H _ (VList [VStr "foo"; VInt 3]) eq_refl); [reflexivity|].
    intros [[|s1 [|s2 strs]] Heq]; discriminate Heq.
  - destruct (get_build_system_requires_spec
                (Some {[ "requires" := VList [VStr "b"; VStr "a"; VStr "b"] ]})
                "pkg") as (_ & _ & _ & H).
    apply (H _ ["b"; "a"; "b"] eq_refl). reflexivity.
Defined.

(** ** Properties of the resolution *)

(** C5: with editable mode requested and [use_pep517] true, the function
    raises the editable-mode error built from "PEP 517 processing was
    explicitly requested", logging nothing, whatever the files present
    and whatever the table holds: the first test of the chain decides. *)
Theorem editable_with_use_pep517_raises
    (build_system : option (gmap string value))
    (has_pyproject has_setup : bool) (use_pep517 : value)
    (req_name : string) :
  truthy use_pep517 = true ->
  resolve_pyproject_toml build_system has_pyproject has_setup use_pep517
    true req_name
  = ([], Raise (make_editable_error
                  req_name "PEP 517 processing was explicitly requested")).
Proof.
  intros Ht. apply resolve_raised.
  unfold settle_use_pep517. rewrite Ht. reflexivity.
Qed.

Lemma editable_with_use_pep517_raises_witness :
  resolve_pyproject_toml
    (Some {[ "requires" := VList [VStr "foo"];
             "build-backend" := VStr "pkg:build" ]})
    true false (VBool true) true "pkg"
  = ([], Raise (make_editable_error
                  "pkg" "PEP 517 processing was explicitly requested")).
Proof.
  apply (editable_with_use_pep517_raises
           (Some {[ "requires" := VList [VStr "foo"];
                    "build-backend" := VStr "pkg:build" ]})
           true false (VBool true) "pkg").
  reflexivity.
Defined.

(** Two values of [use_pep517] that agree on [is None] and on truth are
    settled alike: same log, same exception, and values that again agree
    on [is None] and on truth. *)
Lemma settle_agree
    (build_system : option (gmap string value))
    (has_pyproject has_setup : bool) (u u' : value)
    (editable : bool) (req_name : string) :
  is_None u = is_None u' -> truthy u = truthy u' ->
  match settle_use_pep517 build_system has_pyproject has_setup u
          editable req_name,
        settle_use_pep517 build_system has_pyproject has_setup u'
          editable req_name with
  | (w, Ok v), (w', Ok v') => w = w' /\ truthy v = truthy v'
  | (w, Raise e), (w', Raise e') => w = w' /\ e = e'
  | _, _ => False
  end.
Proof.
  intros Hn Ht. unfold settle_use_pep517, explicitly_disabled.
  rewrite <- Hn, <- Ht.
  destruct (is_None u) eqn:Hnu, (truthy u) eqn:Htu;
    destruct editable, has_pyproject, has_setup; simpl;
    try (split; congruence);
    destruct (declares_backend build_system) eqn:Hdecl; simpl;
    try (split; congruence).
  all: destruct (getitem_declared _ Hdecl) as [v ->]; simpl; auto.
Qed.

Lemma resolve_agree
    (build_system : option (gmap string value))
    (has_pyproject has_setup : bool) (u u' : value)
    (editable : bool) (req_name : string) :
  is_None u = is_None u' -> truthy u = truthy u' ->
  resolve_pyproject_toml build_system has_pyproject has_setup u
    editable req_name
  = resolve_pyproject_toml build_system has_pyproject has_setup u'
      editable req_name.
Proof.
  intros Hn Ht.
  pose proof (settle_agree build_system has_pyproject has_setup u u'
                editable req_name Hn Ht) as H.
  destruct (settle_use_pep517 build_system has_pyproject has_setup u
              editable req_name) as [w [v|e]] eqn:Hs;
    destruct (settle_use_pep517 build_system has_pyproject has_setup u'
                editable req_name) as [w' [v'|e']] eqn:Hs';
    try contradiction; destruct H as [<- H].
  - rewrite (resolve_settled _ _ _ _ _ _ _ _ Hs),
      (resolve_settled _ _ _ _ _ _ _ _ Hs'), H. reflexivity.
  - subst e'. rewrite (resolve_raised _ _ _ _ _ _ _ _ Hs),
      (resolve_raised _ _ _ _ _ _ _ _ Hs'). reflexivity.
Qed.

(** C9: called with [use_pep517 = 0] the function does what it does with
    [use_pep517 = False], on every input: same log, same exception, same
    value returned.  The same holds of any value that is not [None] and
    is false; and the outcome for [0] is neither that for [None] nor that
    for [True] on a project with [pyproject.toml] and [setup.py]. *)
Theorem zero_is_explicitly_disabled
    (build_system : option (gmap string value))
    (has_pyproject has_setup editable : bool) (req_name : string) :
  resolve_pyproject_toml build_system has_pyproject has_setup (VInt 0)
    editable req_name
  = resolve_pyproject_toml build_system has_pyproject has_setup (VBool false)
      editable req_name
  /\ (forall u, explicitly_disabled u = true ->
      resolve_pyproject_toml build_system has_pyproject has_setup u
        editable req_name
      = resolve_pyproject_toml build_system has_pyproject has_setup
          (VBool false) editable req_name)
  /\ resolve_pyproject_toml None true true (VInt 0) false req_name
     <> resolve_pyproject_toml None true true VNone false req_name
  /\ resolve_pyproject_toml None true true (VInt 0) false req_name
     <> resolve_pyproject_toml None true true (VBool true) false req_name.
Proof.
  split; [|split; [|split]].
  - apply resolve_agree; reflexivity.
  - intros u [Hn Ht]%explicitly_disabled_true. apply resolve_agree.
    + destruct u; try reflexivity. contradiction Hn. reflexivity.
    + exact Ht.
  - discriminate.
  - discriminate.
Qed.

Lemma zero_is_explicitly_disabled_witness :
  resolve_pyproject_toml
    (Some {[ "requires" := VList [VStr "foo"] ]}) true true (VInt 0)
    false "pkg"
  = resolve_pyproject_toml
      (Some {[ "requires" := VList [VStr "foo"] ]}) true true (VBool false)
      false "pkg".
Proof.
  destruct (zero_is_explicitly_disabled
              (Some {[ "requires" := VList [VStr "foo"] ]}) true true
              false "pkg") as (_ & H & _).
  apply (H (VInt 0)). reflexivity.
Defined.

(** C10: editable mode, [use_pep517] given and false, a [setup.py], and
    a table that is absent or has no "build-backend" key (and, when there
    is a table, a list of strings under "requires"): the function returns
    [(requires, None)], [requires] being [None] or the declared list, and
    it logs no warning. *)
Theorem editable_opt_out_accepted
    (build_system : option (gmap string value))
    (has_pyproject : bool) (use_pep517 : value) (req_name : string) :
  explicitly_disabled use_pep517 = true ->
  (build_system = None ->
   resolve_pyproject_toml build_system has_pyproject true use_pep517
     true req_name
   = ([], Ok (VNone, None))) /\
  (forall d (strs : list string), build_system = Some d ->
   d !! "build-backend" = None ->
   d !! "requires" = Some (VList (VStr <$> strs)) ->
   resolve_pyproject_toml build_system has_pyproject true use_pep517
     true req_name
   = ([], Ok (VList (VStr <$> strs), None))).
Proof.
  intros [Hn Ht]%explicitly_disabled_true.
  assert (Hnone : is_None use_pep517 = false).
  { destruct use_pep517; try reflexivity. contradiction Hn. reflexivity. }
  assert (Hsettle : forall bs, declares_backend bs = false ->
            settle_use_pep517 bs has_pyproject true use_pep517 true req_name
            = ([], Ok use_pep517)).
  { intros bs Hdecl. settle_cases. by destruct has_pyproject. }
  split.
  - intros ->. rewrite (resolve_settled _ _ _ _ _ _ _ _ (Hsettle None eq_refl)).
    simpl. rewrite Ht. reflexivity.
  - intros d strs -> Hbackend Hreq.
    rewrite (resolve_settled _ _ _ _ _ _ _ _
               (Hsettle (Some d) (declares_backend_no_key d Hbackend))).
    rewrite (requires_found _ _ _ Hreq), is_list_of_str_fmap, Ht.
    reflexivity.
Qed.

Lemma editable_opt_out_accepted_witness :
  resolve_pyproject_toml None false true (VBool false) true "pkg"
  = ([], Ok (VNone, None)) /\
  resolve_pyproject_toml
    (Some {[ "requires" := VList [VStr "setuptools"; VStr "wheel"] ]})
    true true (VBool false) true "pkg"
  = ([], Ok (VList [VStr "setuptools"; VStr "wheel"], None)).
Proof.
  split.
  - apply (editable_opt_out_accepted None false (VBool false) "pkg");
      reflexivity.
  - destruct (editable_opt_out_accepted
                (Some {[ "requires" :=
                           VList [VStr "setuptools"; VStr "wheel"] ]})
                true (VBool false) "pkg" eq_refl) as [_ H].
    apply (H _ ["setuptools"; "wheel"] eq_refl); reflexivity.
Defined.

(** C6: a table with [requires = ["foo"]] and no "build-backend" key,
    both files present, [use_pep517] not given, no editable mode: the
    function returns [["foo"]] with the setuptools legacy backend and the
    check list [["setuptools>=40.8.0", "wheel"]], logging nothing.  On any
    input, the check list of a returned [pep517_data] is not empty exactly
    when there is a table whose "build-backend" is missing (or [None]),
    and then the backend is the legacy one and the list is that one. *)
Theorem requires_only_defaults_backend (req_name : string) :
  resolve_pyproject_toml
    (Some {[ "requires" := VList [VStr "foo"] ]}) true true VNone
    false req_name
  = ([], Ok (VList [VStr "foo"],
             Some (VStr "setuptools.build_meta:__legacy__",
                   ["setuptools>=40.8.0"; "wheel"])))
  /\ forall build_system has_pyproject has_setup use_pep517 editable
       w requires backend check,
     resolve_pyproject_toml build_system has_pyproject has_setup
       use_pep517 editable req_name
     = (w, Ok (requires, Some (backend, check))) ->
     (check <> []
      <-> exists d, build_system = Some d /\
                    dict_get d "build-backend" = VNone) /\
     (check <> [] ->
      backend = VStr legacy_backend /\ check = legacy_requires).
Proof.
  split; [reflexivity|].
  intros build_system has_pyproject has_setup use_pep517 editable
    w requires backend check H.
  destruct (settle_use_pep517 build_system has_pyproject has_setup
              use_pep517 editable req_name) as [w0 [u|e0]] eqn:Hs.
  2: { rewrite (resolve_raised _ _ _ _ _ _ _ _ Hs) in H. discriminate H. }
  rewrite (resolve_settled _ _ _ _ _ _ _ _ Hs) in H.
  destruct (get_build_system_requires build_system req_name)
    as [w1 [r|e]]; [|discriminate H].
  destruct (truthy u); [|discriminate H].
  injection H as _ _ Hbc.
  destruct build_system as [d|]; simpl in Hbc.
  - unfold dict_get.
    destruct (d !! "build-backend") as [[]|] eqn:Hb; simpl;
      injection Hbc as <- <-;
      (split; [split|]);
      first [ by intros _; exists d; rewrite Hb
            | by intros []
            | by intros (d' & [= <-] & Habs); rewrite Hb in Habs
            | done ].
  - injection Hbc as <- <-. split; [split|].
    + by intros [].
    + by intros (d & Habs & _).
    + by intros [].
Qed.

Lemma requires_only_defaults_backend_witness :
  resolve_pyproject_toml
    (Some {[ "requires" := VList [VStr "foo"];
             "build-backend" := VStr "pkg:build" ]})
    true true VNone false "pkg"
  = ([], Ok (VList [VStr "foo"], Some (VStr "pkg:build", []))) /\
  (([] : list string) <> []
   <-> exists d : gmap string value,
         Some ({[ "requires" := VList [VStr "foo"];
                  "build-backend" := VStr "pkg:build" ]}
                 : gmap string value) = Some d /\
         dict_get d "build-backend" = VNone).
Proof.
  assert (Hrun :
    resolve_pyproject_toml
      (Some {[ "requires" := VList [VStr "foo"];
               "build-backend" := VStr "pkg:build" ]})
      true true VNone false "pkg"
    = ([], Ok (VList [VStr "foo"], Some (VStr "pkg:build", []))))
    by reflexivity.
  split; [exact Hrun|].
  destruct (requires_only_defaults_backend "pkg") as [_ Hall].
  apply (Hall _ _ _ _ _ _ _ _ _ Hrun).
Defined.

(** C8: when the function returns, [pep517_data] is not [None] exactly
    when the value of [use_pep517] the chain settled on is true, and is
    [None] exactly when that value is false; the settled value is never
    [None]. *)
Theorem pep517_data_iff_use_pep517
    (build_system : option (gmap string value))
    (has_pyproject has_setup : bool) (use_pep517 : value)
    (editable : bool) (req_name : string)
    (w : list message) (requires : value)
    (pep517_data : option (value * list string)) :
  resolve_pyproject_toml build_system has_pyproject has_setup use_pep517
    editable req_name = (w, Ok (requires, pep517_data)) ->
  exists u,
    settle_use_pep517 build_system has_pyproject has_setup use_pep517
      editable req_name = (w, Ok u) /\
    is_None u = false /\
    (pep517_data <> None <-> truthy u = true) /\
    (pep517_data = None <-> truthy u = false).
Proof.
  intros H.
  destruct (settle_use_pep517 build_system has_pyproject has_setup
              use_pep517 editable req_name) as [w0 [u|e0]] eqn:Hs.
  2: { rewrite (resolve_raised _ _ _ _ _ _ _ _ Hs) in H. discriminate H. }
  rewrite (resolve_settled _ _ _ _ _ _ _ _ Hs) in H.
  exists u.
  destruct (get_build_system_requires build_system req_name)
    as [w1 [r|e]]; [|discriminate H].
  destruct (truthy u) eqn:Ht; injection H as <- _ <-.
  - split; [reflexivity|]. split; [eapply settle_outcome, Hs|].
    split; split; congruence.
  - split; [reflexivity|]. split; [eapply settle_outcome, Hs|].
    split; split; congruence.
Qed.

Lemma pep517_data_iff_use_pep517_witness :
  exists u,
    settle_use_pep517 (Some {[ "requires" := VList [VStr "foo"] ]})
      true true VNone false "pkg" = ([], Ok u) /\
    is_None u = false /\
    (Some (VStr legacy_backend, legacy_requires) <> None
     <-> truthy u = true) /\
    (Some (VStr legacy_backend, legacy_requires) = None
     <-> truthy u = false).
Proof.
  apply (pep517_data_iff_use_pep517
           (Some {[ "requires" := VList [VStr "foo"] ]})
           true true VNone false "pkg" [] (VList [VStr "foo"])).
  reflexivity.
Defined.

(** ** Where the function departs from the documentation *)

(** The outcome in the second arm of the chain ([pyproject.toml] without
    [setup.py]) when nothing rules PEP 517 processing out. *)
Lemma settle_no_setup (build_system : option (gmap string value))
    (use_pep517 : value) (req_name : string) :
  explicitly_disabled use_pep517 = false ->
  settle_use_pep517 build_system true false use_pep517 false req_name
  = ([], Ok (VBool true)).
Proof. intros H. unfold settle_use_pep517. rewrite H. reflexivity. Qed.

(** Against C1 as stated: an empty [build-system] table is a table
    without "requires", and the function raises instead of falling back
    on the defaults.  So does an editable install of a project without
    [setup.py]. *)
Lemma empty_table_raises :
  resolve_pyproject_toml (Some ∅) true false VNone false "pkg"
  = ([], Raise (InstallationError
                  (Pep518Template "pkg" missing_requires_reason)))
  /\ resolve_pyproject_toml (Some ∅) true false VNone false "pkg"
     <> ([], Ok (VList [VStr "setuptools>=40.8.0"; VStr "wheel"],
                 Some (VStr "setuptools.build_meta:__legacy__", [])))
  /\ resolve_pyproject_toml None true false VNone true "pkg"
     = ([], Raise (make_editable_error
                     "pkg" "it has a pyproject.toml file and no setup.py")).
Proof.
  split; [vm_compute; reflexivity|]. split; [|vm_compute; reflexivity].
  intros H. vm_compute in H. discriminate H.
Qed.

(** C1 (amended): with a [pyproject.toml], no [setup.py], [use_pep517]
    not given, no editable mode and no [build-system] table at all, the
    chain settles on PEP 517 processing and the function returns the
    default requirements with the setuptools legacy backend and an empty
    check list.  With a table that is present and empty it raises the
    missing-[requires] error. *)
Theorem no_table_no_setup_defaults (req_name : string) :
  settle_use_pep517 None true false VNone false req_name
  = ([], Ok (VBool true))
  /\ resolve_pyproject_toml None true false VNone false req_name
     = ([], Ok (VList [VStr "setuptools>=40.8.0"; VStr "wheel"],
                Some (VStr "setuptools.build_meta:__legacy__", [])))
  /\ resolve_pyproject_toml (Some ∅) true false VNone false req_name
     = ([], Raise (InstallationError
                     (Pep518Template req_name missing_requires_reason))).
Proof.
  split; [reflexivity|]. split.
  - rewrite (resolve_settled _ _ _ _ _ _ _ _
               (settle_no_setup None VNone req_name eq_refl)).
    reflexivity.
  - rewrite (resolve_settled _ _ _ _ _ _ _ _
               (settle_no_setup (Some ∅) VNone req_name eq_refl)).
    rewrite requires_missing; [reflexivity | apply lookup_empty].
Qed.

(** Against C2 as stated: a declared backend is returned as it stands,
    the empty string included. *)
Lemma empty_backend_returned :
  resolve_pyproject_toml
    (Some {[ "requires" := VList [VStr "setuptools"];
             "build-backend" := VStr "" ]})
    true true VNone false "pkg"
  = ([], Ok (VList [VStr "setuptools"], Some (VStr "", []))).
Proof. vm_compute. reflexivity. Qed.

(** C2 (amended): when the function returns a [pep517_data], its backend
    is the value under "build-backend" as declared, whenever the table
    has one that is not [None], and the setuptools legacy backend, which
    is not the empty string, otherwise; so the backend is the empty
    string exactly when the table declares the empty string. *)
Theorem backend_declared_or_legacy
    (build_system : option (gmap string value))
    (has_pyproject has_setup : bool) (use_pep517 : value)
    (editable : bool) (req_name : string)
    (w : list message) (requires backend : value) (check : list string) :
  resolve_pyproject_toml build_system has_pyproject has_setup use_pep517
    editable req_name = (w, Ok (requires, Some (backend, check))) ->
  (forall d v, build_system = Some d -> d !! "build-backend" = Some v ->
     v <> VNone -> backend = v) /\
  (build_system = None \/
   (exists d, build_system = Some d /\ dict_get d "build-backend" = VNone) ->
   backend = VStr legacy_backend) /\
  (backend = VStr ""
   <-> exists d, build_system = Some d /\
                 d !! "build-backend" = Some (VStr "")).
Proof.
  intros H.
  destruct (settle_use_pep517 build_system has_pyproject has_setup
              use_pep517 editable req_name) as [w0 [u|e0]] eqn:Hs.
  2: { rewrite (resolve_raised _ _ _ _ _ _ _ _ Hs) in H. discriminate H. }
  rewrite (resolve_settled _ _ _ _ _ _ _ _ Hs) in H.
  destruct (get_build_system_requires build_system req_name)
    as [w1 [r|e]]; [|discriminate H].
  destruct (truthy u); [|discriminate H].
  injection H as _ _ Hbc.
  assert (Hb : backend = fst (backend_and_check build_system))
    by (rewrite Hbc; reflexivity).
  clear Hbc. subst backend.
  destruct build_system as [d|]; simpl.
  - unfold dict_get. destruct (d !! "build-backend") as [v|] eqn:Hv.
    + split; [|split].
      * intros d' v' [= <-]. rewrite Hv. intros [= <-] Hne.
        destruct v; try reflexivity. contradiction Hne. reflexivity.
      * intros [Habs|(d' & [= <-] & Hget)]; [discriminate Habs|].
        rewrite Hv in Hget. simpl in Hget. subst v. reflexivity.
      * split.
        -- intros Hempty. exists d. split; [reflexivity|].
           destruct v; simpl in Hempty; try discriminate Hempty.
           rewrite <- Hempty. exact Hv.
        -- intros (d' & [= <-] & Hget). rewrite Hv in Hget.
           injection Hget as ->. reflexivity.
    + split; [|split].
      * intros d' v' [= <-]. rewrite Hv. discriminate.
      * reflexivity.
      * split; [discriminate|].
        intros (d' & [= <-] & Hget). rewrite Hv in Hget. discriminate Hget.
  - split; [|split].
    + discriminate.
    + reflexivity.
    + split; [discriminate|]. intros (d & Habs & _). discriminate Habs.
Qed.

Lemma backend_declared_or_legacy_witness :
  resolve_pyproject_toml
    (Some {[ "requires" := VList [VStr "foo"];
             "build-backend" := VStr "pkg:build" ]})
    true true VNone false "pkg"
  = ([], Ok (VList [VStr "foo"], Some (VStr "pkg:build", []))) /\
  (VStr "pkg:build" = VStr ""
   <-> exists d : gmap string value,
         Some ({[ "requires" := VList [VStr "foo"];
                  "build-backend" := VStr "pkg:build" ]}
                 : gmap string value) = Some d /\
         d !! "build-backend" = Some (VStr "")).
Proof.
  assert (Hrun :
    resolve_pyproject_toml
      (Some {[ "requires" := VList [VStr "foo"];
               "build-backend" := VStr "pkg:build" ]})
      true true VNone false "pkg"
    = ([], Ok (VList [VStr "foo"], Some (VStr "pkg:build", []))))
    by reflexivity.
  split; [exact Hrun|].
  apply (backend_declared_or_legacy _ _ _ _ _ _ _ _ _ _ Hrun).
Defined.

(** Against C3 as stated: with [use_pep517 = False] and a declared
    backend, the function raises before it looks at "requires", and the
    error is the one about disabling PEP 517 processing. *)
Lemma disabled_raises_before_requires :
  resolve_pyproject_toml
    (Some {[ "build-backend" := VStr "pkg:build" ]})
    true true (VBool false) false "pkg"
  = ([], Raise (InstallationError (DisablingBackend (VStr "pkg:build"))))
  /\ resolve_pyproject_toml
       (Some {[ "build-backend" := VStr "pkg:build" ]})
       true true (VBool false) false "pkg"
     <> ([], Raise (InstallationError
                      (Pep518Template "pkg" missing_requires_reason))).
Proof.
  split; [vm_compute; reflexivity|].
  intros H. vm_compute in H. discriminate H.
Qed.

(** C3 (amended): for a table with a "build-backend" key and no
    "requires" key, without editable mode, the function always raises
    and logs nothing.  When [use_pep517] is [None] or true the error is
    the missing-[requires] one.  When [use_pep517] is given and false the
    error is the one about disabling PEP 517 processing: for lack of a
    [setup.py] if there is a [pyproject.toml] and no [setup.py], and
    naming the declared backend otherwise. *)
Theorem backend_without_requires_raises
    (d : gmap string value) (has_pyproject has_setup : bool)
    (use_pep517 : value) (req_name : string) :
  is_Some (d !! "build-backend") -> d !! "requires" = None ->
  resolve_pyproject_toml (Some d) has_pyproject has_setup use_pep517
    false req_name
  = if explicitly_disabled use_pep517 then
      ([], Raise (InstallationError
                    (if has_pyproject && negb has_setup then DisablingNoSetup
                     else DisablingBackend (dict_get d "build-backend"))))
    else
      ([], Raise (InstallationError
                    (Pep518Template req_name missing_requires_reason))).
Proof.
  intros [v Hv] Hreq.
  pose proof (declares_backend_lookup d v Hv) as Hdecl.
  destruct (explicitly_disabled use_pep517) eqn:Hdis.
  - apply resolve_raised. unfold settle_use_pep517, getitem, dict_get.
    rewrite Hdis, Hdecl, Hv.
    destruct (has_pyproject && negb has_setup); reflexivity.
  - assert (Hs : settle_use_pep517 (Some d) has_pyproject has_setup
                   use_pep517 false req_name = ([], Ok (VBool true))).
    { unfold settle_use_pep517. rewrite Hdis, Hdecl.
      destruct (has_pyproject && negb has_setup); reflexivity. }
    rewrite (resolve_settled _ _ _ _ _ _ _ _ Hs).
    rewrite (requires_missing _ _ Hreq). reflexivity.
Qed.

Lemma backend_without_requires_raises_witness :
  resolve_pyproject_toml
    (Some {[ "build-backend" := VStr "pkg:build" ]})
    true true VNone false "pkg"
  = ([], Raise (InstallationError
                  (Pep518Template "pkg" missing_requires_reason))).
Proof.
  apply (backend_without_requires_raises
           {[ "build-backend" := VStr "pkg:build" ]} true true VNone "pkg").
  - exists (VStr "pkg:build"). reflexivity.
  - reflexivity.
Defined.

(** Against C4 as stated: two inputs with a declared backend, editable
    mode and [use_pep517 = False] on which the function raises.  Without
    [setup.py] it raises at once and logs nothing; with [setup.py] and no
    "requires" it logs the warning and then raises. *)
Lemma editable_disabled_backend_may_raise :
  resolve_pyproject_toml
    (Some {[ "requires" := VList [VStr "setuptools"];
             "build-backend" := VStr "pkg:build" ]})
    true false (VBool false) true "pkg"
  = ([], Raise (InstallationError DisablingNoSetup))
  /\ resolve_pyproject_toml
       (Some {[ "build-backend" := VStr "pkg:build" ]})
       true true (VBool false) true "pkg"
     = ([WarnEditableBackendKey "pkg"],
        Raise (InstallationError
                 (Pep518Template "pkg" missing_requires_reason))).
Proof. split; vm_compute; reflexivity. Qed.

Lemma settle_log
    (build_system : option (gmap string value))
    (has_pyproject has_setup : bool) (use_pep517 : value)
    (editable : bool) (req_name : string) :
  settle_use_pep517 build_system has_pyproject has_setup use_pep517
    editable req_name
  = if warns build_system has_pyproject has_setup use_pep517 editable
    then ([WarnEditableBackendKey req_name], Ok use_pep517)
    else ([], snd (settle_use_pep517 build_system has_pyproject has_setup
                     use_pep517 editable req_name)).
Proof.
  unfold warns.
  split_use_pep517 use_pep517; settle_cases;
    destruct editable, has_pyproject, has_setup; simpl; try reflexivity;
    destruct (declares_backend build_system) eqn:Hdecl; simpl;
    try reflexivity.
  all: destruct (getitem_declared _ Hdecl) as [v ->]; reflexivity.
Qed.

Lemma resolve_log
    (build_system : option (gmap string value))
    (has_pyproject has_setup : bool) (use_pep517 : value)
    (editable : bool) (req_name : string) :
  fst (resolve_pyproject_toml build_system has_pyproject has_setup
         use_pep517 editable req_name)
  = fst (settle_use_pep517 build_system has_pyproject has_setup
           use_pep517 editable req_name).
Proof.
  destruct (settle_use_pep517 build_system has_pyproject has_setup
              use_pep517 editable req_name) as [w [u|e]] eqn:Hs.
  - rewrite (resolve_settled _ _ _ _ _ _ _ _ Hs).
    destruct (get_build_system_requires build_system req_name) as [w1 [r|e]];
      [destruct (truthy u)|]; reflexivity.
  - rewrite (resolve_raised _ _ _ _ _ _ _ _ Hs). reflexivity.
Qed.

(** C4 (amended): the function logs the warning, once, exactly when
    editable mode is requested, [use_pep517] is given and false, the
    table has a "build-backend" key, and the project is not one with a
    [pyproject.toml] and no [setup.py]; on every other input it logs
    nothing.  On those inputs it never returns a [pep517_data]: it
    returns [(requires, None)] when "requires" holds a list of strings. *)
Theorem warning_only_for_editable_opt_out
    (build_system : option (gmap string value))
    (has_pyproject has_setup : bool) (use_pep517 : value)
    (editable : bool) (req_name : string) :
  fst (resolve_pyproject_toml build_system has_pyproject has_setup
         use_pep517 editable req_name)
  = (if warns build_system has_pyproject has_setup use_pep517 editable
     then [WarnEditableBackendKey req_name] else [])
  /\ (warns build_system has_pyproject has_setup use_pep517 editable = true ->
      (forall w requires pep517_data,
         resolve_pyproject_toml build_system has_pyproject has_setup
           use_pep517 editable req_name = (w, Ok (requires, pep517_data)) ->
         pep517_data = None) /\
      (forall d (strs : list string), build_system = Some d ->
         d !! "requires" = Some (VList (VStr <$> strs)) ->
         resolve_pyproject_toml build_system has_pyproject has_setup
           use_pep517 editable req_name
         = ([WarnEditableBackendKey req_name],
            Ok (VList (VStr <$> strs), None)))).
Proof.
  split.
  - rewrite resolve_log, settle_log.
    destruct (warns _ _ _ _ _); reflexivity.
  - intros Hw.
    pose proof (settle_log build_system has_pyproject has_setup use_pep517
                  editable req_name) as Hs.
    rewrite Hw in Hs.
    assert (Ht : truthy use_pep517 = false).
    { unfold warns in Hw. rewrite !andb_true_iff in Hw.
      destruct Hw as [[[_ Hdis] _] _].
      apply explicitly_disabled_true in Hdis. apply Hdis. }
    rewrite (resolve_settled _ _ _ _ _ _ _ _ Hs), Ht. split.
    + intros w requires pep517_data.
      destruct (get_build_system_requires build_system req_name)
        as [w1 [r|e]]; [|discriminate].
      intros [= _ _ <-]. reflexivity.
    + intros d strs -> Hreq.
      rewrite (requires_found _ _ _ Hreq), is_list_of_str_fmap. reflexivity.
Qed.

Lemma warning_only_for_editable_opt_out_witness :
  resolve_pyproject_toml
    (Some {[ "requires" := VList [VStr "setuptools"];
             "build-backend" := VStr "pkg:build" ]})
    true true (VBool false) true "pkg"
  = ([WarnEditableBackendKey "pkg"], Ok (VList [VStr "setuptools"], None)).
Proof.
  destruct (warning_only_for_editable_opt_out
              (Some {[ "requires" := VList [VStr "setuptools"];
                       "build-backend" := VStr "pkg:build" ]})
              true true (VBool false) true "pkg") as [_ H].
  destruct (H eq_refl) as [_ Hret].
  apply (Hret _ ["setuptools"] eq_refl). reflexivity.
Defined.

(** ** Further properties of the requirements check *)

(** X1: [_is_list_of_str] accepts a value exactly when it is a list and
    every element of the list is a string; so the empty list passes and a
    bare string does not. *)
Theorem is_list_of_str_elementwise (obj : value) :
  _is_list_of_str obj = true
  <-> exists l, obj = VList l /\ forall v, v ∈ l -> exists s, v = VStr s.
Proof.
  split.
  - intros [strs ->]%is_list_of_str_iff. exists (VStr <$> strs).
    split; [reflexivity|].
    intros v (s & -> & _)%list_elem_of_fmap. eauto.
  - intros (l & -> & Hall). simpl. apply forallb_forall.
    intros v Hin%list_elem_of_In. destruct (Hall v Hin) as [s ->].
    reflexivity.
Qed.

Lemma requires_same_entry
    (d d' : gmap string value) (req_name : string) :
  d !! "requires" = d' !! "requires" ->
  get_build_system_requires (Some d) req_name
  = get_build_system_requires (Some d') req_name.
Proof.
  intros Heq. destruct (d !! "requires") as [v|] eqn:Hd; symmetry in Heq.
  - rewrite (requires_found _ _ _ Hd), (requires_found _ _ _ Heq).
    reflexivity.
  - rewrite (requires_missing _ _ Hd), (requires_missing _ _ Heq).
    reflexivity.
Qed.

(** X2: [get_build_system_requires] reads nothing of a table but the
    entry under "requires": adding or replacing any other key, and
    removing one, leaves the outcome as it was. *)
Theorem requires_reads_one_key
    (d : gmap string value) (key : string) (v : value)
    (req_name : string) :
  key <> "requires" ->
  get_build_system_requires (Some (<[key := v]> d)) req_name
  = get_build_system_requires (Some d) req_name
  /\ get_build_system_requires (Some (delete key d)) req_name
     = get_build_system_requires (Some d) req_name.
Proof.
  intros Hne. split; apply requires_same_entry.
  - apply lookup_insert_ne, Hne.
  - apply lookup_delete_ne, Hne.
Qed.

Lemma requires_reads_one_key_witness :
  get_build_system_requires
    (Some (<[ "build-backend" := VStr "pkg:build" ]>
             {[ "requires" := VList [VStr "foo"] ]})) "pkg"
  = get_build_system_requires
      (Some {[ "requires" := VList [VStr "foo"] ]}) "pkg".
Proof.
  apply (requires_reads_one_key
           {[ "requires" := VList [VStr "foo"] ]}
           "build-backend" (VStr "pkg:build") "pkg").
  discriminate.
Defined.

(** ** Further properties of the resolution *)


(** X4: when the function returns for a project with a [build-system]
    table, the requirements returned are the list of strings declared
    under "requires", in PEP 517 mode and in legacy mode alike.  Without a
    table it returns either [(None, None)] or the default requirements
    with the setuptools legacy backend and nothing to check. *)
Theorem returned_requires
    (build_system : option (gmap string value))
    (has_pyproject has_setup : bool) (use_pep517 : value)
    (editable : bool) (req_name : string)
    (w : list message) (requires : value)
    (pep517_data : option (value * list string)) :
  resolve_pyproject_toml build_system has_pyproject has_setup use_pep517
    editable req_name = (w, Ok (requires, pep517_data)) ->
  match build_system with
  | Some d =>
      d !! "requires" = Some requires /\
      exists strs : list string, requires = VList (VStr <$> strs)
  | None =>
      (requires = VNone /\ pep517_data = None) \/
      (requires = VList [VStr "setuptools>=40.8.0"; VStr "wheel"] /\
       pep517_data = Some (VStr "setuptools.build_meta:__legacy__", []))
  end.
Proof.
  intros H.
  destruct (settle_use_pep517 build_system has_pyproject has_setup
              use_pep517 editable req_name) as [w0 [u|e0]] eqn:Hs.
  2: { rewrite (resolve_raised _ _ _ _ _ _ _ _ Hs) in H. discriminate H. }
  rewrite (resolve_settled _ _ _ _ _ _ _ _ Hs) in H.
  destruct (requires_outcome build_system req_name) as (r & Hr & Hok).
  rewrite Hr in H. destruct r as [v|e]; [|discriminate H].
  destruct (Hok v eq_refl) as [[-> ->]|(d & strs & -> & Hreq & ->)].
  - destruct (truthy u); injection H as _ <- <-; [right|left];
      split; reflexivity.
  - destruct (truthy u); injection H as _ <- _; eauto.
Qed.

Lemma returned_requires_witness :
  ({[ "requires" := VList [VStr "b"; VStr "a"; VStr "b"] ]}
     : gmap string value) !! "requires"
  = Some (VList [VStr "b"; VStr "a"; VStr "b"]) /\
  exists strs : list string,
    VList [VStr "b"; VStr "a"; VStr "b"] = VList (VStr <$> strs).
Proof.
  apply (returned_requires
           (Some {[ "requires" := VList [VStr "b"; VStr "a"; VStr "b"] ]})
           true true (VBool false) true "pkg" []
           (VList [VStr "b"; VStr "a"; VStr "b"]) None).
  reflexivity.
Defined.

(** What the chain settles on, when it does, in the cases below. *)
Lemma settled_editable
    (build_system : option (gmap string value))
    (has_pyproject has_setup : bool) (use_pep517 : value)
    (req_name : string) (w : list message) (u : value) :
  settle_use_pep517 build_system has_pyproject has_setup use_pep517
    true req_name = (w, Ok u) ->
  truthy u = false.
Proof.
  split_use_pep517 use_pep517; settle_cases;
    destruct has_pyproject, has_setup; simpl;
    destruct (declares_backend build_system) eqn:Hdecl; simpl;
    try discriminate;
    intros [= <- <-]; first [reflexivity | assumption].
Qed.

Lemma settled_explicit
    (build_system : option (gmap string value))
    (has_pyproject has_setup : bool) (use_pep517 : value)
    (editable : bool) (req_name : string) (w : list message) (u : value) :
  is_None use_pep517 = false ->
  settle_use_pep517 build_system has_pyproject has_setup use_pep517
    editable req_name = (w, Ok u) ->
  truthy u = truthy use_pep517.
Proof.
  intros Hn.
  destruct (truthy use_pep517) eqn:Ht; settle_cases;
    destruct editable, has_pyproject, has_setup; simpl;
    destruct (declares_backend build_system) eqn:Hdecl; simpl;
    try discriminate;
    try (intros [= <- <-]; first [reflexivity | assumption]).
  all: destruct (getitem_declared _ Hdecl) as [v ->]; discriminate.
Qed.

(** From the settled value to the shape of what is returned. *)
Lemma returned_pep517_data
    (build_system : option (gmap string value))
    (has_pyproject has_setup : bool) (use_pep517 : value)
    (editable : bool) (req_name : string)
    (w : list message) (requires : value)
    (pep517_data : option (value * list string)) :
  resolve_pyproject_toml build_system has_pyproject has_setup use_pep517
    editable req_name = (w, Ok (requires, pep517_data)) ->
  exists u,
    settle_use_pep517 build_system has_pyproject has_setup use_pep517
      editable req_name = (w, Ok u) /\
    pep517_data
    = if truthy u then Some (backend_and_check build_system) else None.
Proof.
  intros H.
  destruct (settle_use_pep517 build_system has_pyproject has_setup
              use_pep517 editable req_name) as [w0 [u|e0]] eqn:Hs.
  2: { rewrite (resolve_raised _ _ _ _ _ _ _ _ Hs) in H. discriminate H. }
  rewrite (resolve_settled _ _ _ _ _ _ _ _ Hs) in H.
  destruct (get_build_system_requires build_system req_name)
    as [w1 [r|e]]; [|discriminate H].
  exists u. destruct (truthy u); injection H as <- _ <-; split; reflexivity.
Qed.

(** X5: an editable install never comes back in PEP 517 mode: with
    [editable] true the function raises or returns [(requires, None)]. *)
Theorem editable_returns_legacy
    (build_system : option (gmap string value))
    (has_pyproject has_setup : bool) (use_pep517 : value)
    (req_name : string)
    (w : list message) (requires : value)
    (pep517_data : option (value * list string)) :
  resolve_pyproject_toml build_system has_pyproject has_setup use_pep517
    true req_name = (w, Ok (requires, pep517_data)) ->
  pep517_data = None.
Proof.
  intros (u & Hs & ->)%returned_pep517_data.
  rewrite (settled_editable _ _ _ _ _ _ _ Hs). reflexivity.
Qed.

Lemma editable_returns_legacy_witness :
  exists pep517_data,
    resolve_pyproject_toml
      (Some {[ "requires" := VList [VStr "foo"] ]})
      true true (VBool false) true "pkg"
    = ([], Ok (VList [VStr "foo"], pep517_data)) /\
    pep517_data = None.
Proof.
  exists None. split; [reflexivity|].
  apply (editable_returns_legacy
           (Some {[ "requires" := VList [VStr "foo"] ]})
           true true (VBool false) "pkg" [] (VList [VStr "foo"]) None).
  reflexivity.
Defined.

(** X6: a choice the caller made is never overridden.  When [use_pep517]
    is given, the function raises or follows it: a true value gives a
    [pep517_data], a false one gives [None]. *)
Theorem explicit_choice_followed
    (build_system : option (gmap string value))
    (has_pyproject has_setup : bool) (use_pep517 : value)
    (editable : bool) (req_name : string)
    (w : list message) (requires : value)
    (pep517_data : option (value * list string)) :
  use_pep517 <> VNone ->
  resolve_pyproject_toml build_system has_pyproject has_setup use_pep517
    editable req_name = (w, Ok (requires, pep517_data)) ->
  (truthy use_pep517 = true -> pep517_data <> None) /\
  (truthy use_pep517 = false -> pep517_data = None).
Proof.
  intros Hne (u & Hs & ->)%returned_pep517_data.
  assert (Hn : is_None use_pep517 = false).
  { destruct use_pep517; try reflexivity. contradiction Hne. reflexivity. }
  rewrite (settled_explicit _ _ _ _ _ _ _ _ Hn Hs).
  split; intros ->; [discriminate | reflexivity].
Qed.

Lemma explicit_choice_followed_witness :
  (truthy (VBool true) = true
   -> Some (VStr legacy_backend, legacy_requires) <> None) /\
  (truthy (VBool true) = false
   -> Some (VStr legacy_backend, legacy_requires) = None).
Proof.
  apply (explicit_choice_followed
           (Some {[ "requires" := VList [VStr "foo"] ]})
           false true (VBool true) false "pkg" [] (VList [VStr "foo"])).
  - discriminate.
  - reflexivity.
Defined.

(** X7: a project with a [pyproject.toml] and no [setup.py] is never
    processed in legacy mode.  Asking for it ([use_pep517] given and
    false) raises the error about disabling PEP 517 processing, whatever
    the table holds and whether or not editable mode is requested; and
    whenever the function returns for such a project, it returns a
    [pep517_data]. *)
Theorem no_setup_never_legacy
    (build_system : option (gmap string value)) (use_pep517 : value)
    (editable : bool) (req_name : string) :
  (explicitly_disabled use_pep517 = true ->
   resolve_pyproject_toml build_system true false use_pep517
     editable req_name
   = ([], Raise (InstallationError DisablingNoSetup))) /\
  (forall w requires pep517_data,
     resolve_pyproject_toml build_system true false use_pep517
       editable req_name = (w, Ok (requires, pep517_data)) ->
     pep517_data <> None).
Proof.
  split.
  - intros Hdis. apply resolve_raised. unfold settle_use_pep517.
    apply explicitly_disabled_true in Hdis as Hd. destruct Hd as [_ Ht].
    rewrite Ht, Hdis, andb_false_r. reflexivity.
  - intros w requires pep517_data (u & Hs & ->)%returned_pep517_data.
    unfold settle_use_pep517 in Hs. simpl in Hs.
    destruct (editable && truthy use_pep517); [discriminate Hs|].
    destruct (explicitly_disabled use_pep517); [discriminate Hs|].
    destruct editable; [discriminate Hs|].
    injection Hs as _ <-. discriminate.
Qed.

Lemma no_setup_never_legacy_witness :
  resolve_pyproject_toml
    (Some {[ "requires" := VList [VStr "foo"] ]}) true false (VInt 0)
    true "pkg"
  = ([], Raise (InstallationError DisablingNoSetup))
  /\ Some (VStr legacy_backend, legacy_requires) <> None.
Proof.
  split.
  - apply (no_setup_never_legacy
             (Some {[ "requires" := VList [VStr "foo"] ]}) (VInt 0)
             true "pkg").
    reflexivity.
  - destruct (no_setup_never_legacy
                (Some {[ "requires" := VList [VStr "foo"] ]}) VNone
                false "pkg") as [_ H].
    apply (H [] (VList [VStr "foo"])). reflexivity.
Defined.

(** X8: outside editable mode a declared backend is never passed over.
    If the table has a "build-backend" key and the function returns, it
    returns the declared backend with nothing to check (or, for a
    declared [None], the setuptools legacy backend with the two
    requirements to check); it never returns legacy mode. *)
Theorem declared_backend_used
    (d : gmap string value) (backend : value)
    (has_pyproject has_setup : bool) (use_pep517 : value)
    (req_name : string)
    (w : list message) (requires : value)
    (pep517_data : option (value * list string)) :
  d !! "build-backend" = Some backend ->
  resolve_pyproject_toml (Some d) has_pyproject has_setup use_pep517
    false req_name = (w, Ok (requires, pep517_data)) ->
  pep517_data
  = Some (if is_None backend
          then (VStr "setuptools.build_meta:__legacy__",
                ["setuptools>=40.8.0"; "wheel"])
          else (backend, [])).
Proof.
  intros Hb (u & Hs & ->)%returned_pep517_data.
  unfold settle_use_pep517 in Hs.
  rewrite (declares_backend_lookup _ _ Hb) in Hs. simpl in Hs.
  assert (Hu : u = VBool true).
  { destruct (has_pyproject && negb has_setup).
    - destruct (explicitly_disabled use_pep517); [discriminate Hs|].
      by injection Hs as _ <-.
    - destruct (explicitly_disabled use_pep517).
      + unfold getitem in Hs. rewrite Hb in Hs. discriminate Hs.
      + by injection Hs as _ <-. }
  subst u. simpl. rewrite Hb. destruct backend; reflexivity.
Qed.

Lemma declared_backend_used_witness :
  Some (VStr "pkg:build", @nil string)
  = Some (if is_None (VStr "pkg:build")
          then (VStr "setuptools.build_meta:__legacy__",
                ["setuptools>=40.8.0"; "wheel"])
          else (VStr "pkg:build", [])).
Proof.
  apply (declared_backend_used
           {[ "requires" := VList [VStr "foo"];
              "build-backend" := VStr "pkg:build" ]}
           (VStr "pkg:build") true true VNone "pkg"
           [] (VList [VStr "foo"])); reflexivity.
Defined.

(** X9: of the [build-system] table the function reads the entries under
    "requires" and "build-backend" and nothing else: two tables that
    agree on both give the same log and the same outcome. *)
Theorem resolve_reads_two_keys
    (d d' : gmap string value)
    (has_pyproject has_setup : bool) (use_pep517 : value)
    (editable : bool) (req_name : string) :
  d !! "requires" = d' !! "requires" ->
  d !! "build-backend" = d' !! "build-backend" ->
  resolve_pyproject_toml (Some d) has_pyproject has_setup use_pep517
    editable req_name
  = resolve_pyproject_toml (Some d') has_pyproject has_setup use_pep517
      editable req_name.
Proof.
  intros Hreq Hb.
  assert (Hdecl : declares_backend (Some d) = declares_backend (Some d')).
  { destruct (d !! "build-backend") as [v|] eqn:Hd; symmetry in Hb.
    - rewrite (declares_backend_lookup _ _ Hd),
        (declares_backend_lookup _ _ Hb). reflexivity.
    - rewrite (declares_backend_no_key _ Hd),
        (declares_backend_no_key _ Hb). reflexivity. }
  assert (Hs : settle_use_pep517 (Some d) has_pyproject has_setup
                 use_pep517 editable req_name
               = settle_use_pep517 (Some d') has_pyproject has_setup
                   use_pep517 editable req_name).
  { unfold settle_use_pep517, getitem. rewrite Hdecl, Hb. reflexivity. }
  destruct (settle_use_pep517 (Some d') has_pyproject has_setup
              use_pep517 editable req_name) as [w [u|e]] eqn:Hs'.
  - rewrite (resolve_settled _ _ _ _ _ _ _ _ Hs),
      (resolve_settled _ _ _ _ _ _ _ _ Hs'),
      (requires_same_entry d d' req_name Hreq).
    simpl. rewrite Hb. reflexivity.
  - rewrite (resolve_raised _ _ _ _ _ _ _ _ Hs),
      (resolve_raised _ _ _ _ _ _ _ _ Hs'). reflexivity.
Qed.

Lemma resolve_reads_two_keys_witness :
  resolve_pyproject_toml
    (Some {[ "requires" := VList [VStr "foo"] ]})
    true true VNone false "pkg"
  = resolve_pyproject_toml
      (Some {[ "requires" := VList [VStr "foo"];
               "name" := VStr "ignored" ]})
      true true VNone false "pkg".
Proof.
  apply (resolve_reads_two_keys
           {[ "requires" := VList [VStr "foo"] ]}
           {[ "requires" := VList [VStr "foo"]; "name" := VStr "ignored" ]}
           true true VNone false "pkg"); reflexivity.
Defined.

(** Without a [pyproject.toml] the presence of [setup.py] plays no part. *)
Lemma setup_unread_without_pyproject
    (build_system : option (gmap string value))
    (has_setup has_setup' : bool) (use_pep517 : value)
    (editable : bool) (req_name : string) :
  resolve_pyproject_toml build_system false has_setup use_pep517
    editable req_name
  = resolve_pyproject_toml build_system false has_setup' use_pep517
      editable req_name.
Proof. reflexivity. Qed.

(** The name of the requirement reaches the messages only. *)
Lemma settle_any_name
    (build_system : option (gmap string value))
    (has_pyproject has_setup : bool) (use_pep517 : value)
    (editable : bool) (req_name req_name' : string) :
  match settle_use_pep517 build_system has_pyproject has_setup use_pep517
          editable req_name,
        settle_use_pep517 build_system has_pyproject has_setup use_pep517
          editable req_name' with
  | (w, Ok u), (w', Ok u') => length w = length w' /\ u = u'
  | (w, Raise _), (w', Raise _) => length w = length w'
  | _, _ => False
  end.
Proof.
  unfold settle_use_pep517.
  destruct editable, has_pyproject, has_setup, (truthy use_pep517),
    (explicitly_disabled use_pep517), (is_None use_pep517);
    simpl; auto;
    destruct (declares_backend build_system) eqn:Hdecl; simpl; auto.
  all: destruct (getitem_declared _ Hdecl) as [v ->]; simpl; auto.
Qed.

Lemma requires_any_name
    (build_system : option (gmap string value))
    (req_name req_name' : string) :
  match get_build_system_requires build_system req_name,
        get_build_system_requires build_system req_name' with
  | (_, Ok v), (_, Ok v') => v = v'
  | (_, Raise _), (_, Raise _) => True
  | _, _ => False
  end.
Proof.
  destruct build_system as [d|]; [|reflexivity].
  destruct (d !! "requires") as [v|] eqn:Hreq.
  - rewrite !(requires_found _ _ _ Hreq).
    destruct (_is_list_of_str v); reflexivity.
  - rewrite !(requires_missing _ _ Hreq). exact I.
Qed.

(** X10: [req_name] is used for the messages and for nothing else.  Under
    two names the function logs as many warnings, and it either returns
    the same value under both or raises under both. *)
Theorem req_name_only_in_messages
    (build_system : option (gmap string value))
    (has_pyproject has_setup : bool) (use_pep517 : value)
    (editable : bool) (req_name req_name' : string) :
  match resolve_pyproject_toml build_system has_pyproject has_setup
          use_pep517 editable req_name,
        resolve_pyproject_toml build_system has_pyproject has_setup
          use_pep517 editable req_name' with
  | (w, Ok x), (w', Ok x') => length w = length w' /\ x = x'
  | (w, Raise _), (w', Raise _) => length w = length w'
  | _, _ => False
  end.
Proof.
  pose proof (settle_any_name build_system has_pyproject has_setup
                use_pep517 editable req_name req_name') as Hs.
  pose proof (requires_any_name build_system req_name req_name') as Hr.
  destruct (settle_use_pep517 build_system has_pyproject has_setup
              use_pep517 editable req_name) as [w [u|e]] eqn:H1;
    destruct (settle_use_pep517 build_system has_pyproject has_setup
                use_pep517 editable req_name') as [w' [u'|e']] eqn:H2;
    try contradiction.
  - destruct Hs as [Hlen <-].
    rewrite (resolve_settled _ _ _ _ _ _ _ _ H1),
      (resolve_settled _ _ _ _ _ _ _ _ H2).
    destruct (get_build_system_requires build_system req_name)
      as [w1 [r|e1]];
      destruct (get_build_system_requires build_system req_name')
        as [w2 [r'|e2]]; try contradiction.
    + subst r'. destruct (truthy u); split; auto.
    + exact Hlen.
  - rewrite (resolve_raised _ _ _ _ _ _ _ _ H1),
      (resolve_raised _ _ _ _ _ _ _ _ H2). exact Hs.
Qed.

(** X11: when [use_pep517] is not given and no editable mode is asked
    for, the chain raises nothing and settles on PEP 517 processing
    exactly when the project has a [pyproject.toml] or its table has a
    "build-backend" key; so a value returned then carries a
    [pep517_data] exactly in that case. *)
Theorem unspecified_follows_pyproject
    (build_system : option (gmap string value))
    (has_pyproject has_setup : bool) (req_name : string) :
  settle_use_pep517 build_system has_pyproject has_setup VNone
    false req_name
  = ([], Ok (VBool (has_pyproject || declares_backend build_system)))
  /\ forall w requires pep517_data,
       resolve_pyproject_toml build_system has_pyproject has_setup VNone
         false req_name = (w, Ok (requires, pep517_data)) ->
       (pep517_data <> None
        <-> has_pyproject = true \/
            exists d, build_system = Some d /\
                      is_Some (d !! "build-backend")).
Proof.
  assert (Hs : settle_use_pep517 build_system has_pyproject has_setup
                 VNone false req_name
               = ([], Ok (VBool (has_pyproject
                                 || declares_backend build_system)))).
  { unfold settle_use_pep517. simpl.
    destruct has_pyproject, has_setup,
      (declares_backend build_system); reflexivity. }
  split; [exact Hs|].
  intros w requires pep517_data (u & Hs' & ->)%returned_pep517_data.
  rewrite Hs in Hs'. injection Hs' as _ <-. simpl.
  rewrite <- declares_backend_true.
  destruct has_pyproject, (declares_backend build_system); simpl;
    split; auto; try discriminate.
  intros [H|H]; discriminate H.
Qed.

Lemma unspecified_follows_pyproject_witness :
  Some (VStr legacy_backend, legacy_requires) <> None
  <-> true = true \/
      exists d : gmap string value,
        Some ({[ "requires" := VList [VStr "foo"] ]} : gmap string value)
        = Some d /\ is_Some (d !! "build-backend").
Proof.
  destruct (unspecified_follows_pyproject
              (Some {[ "requires" := VList [VStr "foo"] ]})
              true true "pkg") as [_ H].
  apply (H [] (VList [VStr "foo"])). reflexivity.
Defined.

(** ** Properties of the loader *)

Lemma isfile_true (fs : gmap string file) (path : string) (f : file) :
  fs !! path = Some f -> os_path_isfile fs path = true.
Proof. intros H. apply bool_decide_eq_true. exists f. exact H. Qed.

Lemma isfile_false (fs : gmap string file) (path : string) :
  fs !! path = None -> os_path_isfile fs path = false.
Proof.
  intros H. apply bool_decide_eq_false. rewrite H. apply is_Some_None.
Qed.

(** What the loader does depends on the file system through the entry
    at [pyproject_toml] and the presence of [setup_py]. *)
Lemma load_same_files (fs fs' : gmap string file)
    (use_pep517 : value) (editable : bool)
    (pyproject_toml setup_py req_name : string) :
  fs !! pyproject_toml = fs' !! pyproject_toml ->
  os_path_isfile fs setup_py = os_path_isfile fs' setup_py ->
  load_pyproject_toml fs use_pep517 editable pyproject_toml setup_py
    req_name
  = load_pyproject_toml fs' use_pep517 editable pyproject_toml setup_py
      req_name.
Proof.
  intros Hpp Hsetup.
  assert (Hfile : os_path_isfile fs pyproject_toml
                  = os_path_isfile fs' pyproject_toml)
    by (unfold os_path_isfile; rewrite Hpp; reflexivity).
  unfold load_pyproject_toml, read_pyproject_toml.
  rewrite Hsetup, Hfile, Hpp. reflexivity.
Qed.

(** X12: without a file at [pyproject_toml] nothing is read, and what
    [load_pyproject_toml] does is what [resolve_pyproject_toml] does
    with no table and no [pyproject.toml], whether or not [setup_py]
    exists.  In particular, unless [use_pep517] is true, it returns
    [(None, None)] and logs nothing, in editable mode too. *)
Theorem load_without_pyproject (fs : gmap string file)
    (use_pep517 : value) (editable : bool)
    (pyproject_toml setup_py req_name : string) :
  fs !! pyproject_toml = None ->
  load_pyproject_toml fs use_pep517 editable pyproject_toml setup_py
    req_name
  = Resolved (resolve_pyproject_toml None false false use_pep517
                editable req_name)
  /\ (truthy use_pep517 = false ->
      load_pyproject_toml fs use_pep517 editable pyproject_toml setup_py
        req_name
      = Resolved ([], Ok (VNone, None))).
Proof.
  intros Hpp.
  assert (Hload :
    load_pyproject_toml fs use_pep517 editable pyproject_toml setup_py
      req_name
    = Resolved (resolve_pyproject_toml None false false use_pep517
                  editable req_name)).
  { unfold load_pyproject_toml. rewrite (isfile_false _ _ Hpp). simpl.
    by rewrite (setup_unread_without_pyproject
                  None (os_path_isfile fs setup_py) false). }
  split; [exact Hload|].
  intros Ht. rewrite Hload. f_equal.
  unfold resolve_pyproject_toml, settle_use_pep517. simpl.
  rewrite Ht, andb_false_r.
  destruct (is_None use_pep517) eqn:Hn; simpl; [reflexivity|].
  rewrite Hn, Ht. reflexivity.
Qed.

Lemma load_without_pyproject_witness :
  load_pyproject_toml {[ "/src/pkg/setup.py" := OtherFile ]}
    (VBool false) true "/src/pkg/pyproject.toml" "/src/pkg/setup.py" "pkg"
  = Resolved ([], Ok (VNone, None)).
Proof.
  apply (load_without_pyproject
           {[ "/src/pkg/setup.py" := OtherFile ]}
           (VBool false) true
           "/src/pkg/pyproject.toml" "/src/pkg/setup.py" "pkg");
    reflexivity.
Defined.

(** X13: the file is read exactly when it exists, and before anything is
    decided.  Opening it never fails for want of a file; and a
    [pyproject.toml] that [pytoml] rejects makes the call end in that
    parse error whatever the other arguments are, also for the editable
    install with [use_pep517] true that [resolve_pyproject_toml] would
    refuse. *)
Theorem load_reads_existing_file_first (fs : gmap string file)
    (use_pep517 : value) (editable : bool)
    (pyproject_toml setup_py req_name : string) :
  load_pyproject_toml fs use_pep517 editable pyproject_toml setup_py
    req_name <> ReadFailed IOError
  /\ (fs !! pyproject_toml = Some OtherFile ->
      load_pyproject_toml fs use_pep517 editable pyproject_toml setup_py
        req_name = ReadFailed TomlError).
Proof.
  unfold load_pyproject_toml, read_pyproject_toml. split.
  - destruct (fs !! pyproject_toml) as [[doc|]|] eqn:Hpp.
    + rewrite (isfile_true _ _ _ Hpp).
      destruct (dict_get doc "build-system"); discriminate.
    + rewrite (isfile_true _ _ _ Hpp). discriminate.
    + rewrite (isfile_false _ _ Hpp). discriminate.
  - intros Hpp. rewrite (isfile_true _ _ _ Hpp), Hpp. reflexivity.
Qed.

Lemma load_reads_existing_file_first_witness :
  load_pyproject_toml
    {[ "/src/pkg/pyproject.toml" := OtherFile;
       "/src/pkg/setup.py" := OtherFile ]}
    (VBool true) true "/src/pkg/pyproject.toml" "/src/pkg/setup.py" "pkg"
  = ReadFailed TomlError.
Proof.
  apply (load_reads_existing_file_first
           {[ "/src/pkg/pyproject.toml" := OtherFile;
              "/src/pkg/setup.py" := OtherFile ]}
           (VBool true) true
           "/src/pkg/pyproject.toml" "/src/pkg/setup.py" "pkg").
  reflexivity.
Defined.

(** X14: no file but the two named ones is looked at: creating,
    replacing or deleting a file at any other path leaves the outcome of
    [load_pyproject_toml] as it was. *)
Theorem load_ignores_other_files (fs : gmap string file)
    (path : string) (f : file)
    (use_pep517 : value) (editable : bool)
    (pyproject_toml setup_py req_name : string) :
  path <> pyproject_toml -> path <> setup_py ->
  load_pyproject_toml (<[path := f]> fs) use_pep517 editable
    pyproject_toml setup_py req_name
  = load_pyproject_toml fs use_pep517 editable pyproject_toml setup_py
      req_name
  /\ load_pyproject_toml (delete path fs) use_pep517 editable
       pyproject_toml setup_py req_name
     = load_pyproject_toml fs use_pep517 editable pyproject_toml setup_py
         req_name.
Proof.
  intros Hpp Hsetup. split; apply load_same_files.
  - apply lookup_insert_ne, Hpp.
  - unfold os_path_isfile. by rewrite lookup_insert_ne.
  - apply lookup_delete_ne, Hpp.
  - unfold os_path_isfile. by rewrite lookup_delete_ne.
Qed.

Lemma load_ignores_other_files_witness :
  load_pyproject_toml
    (<[ "/src/pkg/setup.cfg" := OtherFile ]>
       {[ "/src/pkg/setup.py" := OtherFile ]})
    VNone false "/src/pkg/pyproject.toml" "/src/pkg/setup.py" "pkg"
  = load_pyproject_toml {[ "/src/pkg/setup.py" := OtherFile ]}
      VNone false "/src/pkg/pyproject.toml" "/src/pkg/setup.py" "pkg".
Proof.
  apply (load_ignores_other_files
           {[ "/src/pkg/setup.py" := OtherFile ]}
           "/src/pkg/setup.cfg" OtherFile VNone false
           "/src/pkg/pyproject.toml" "/src/pkg/setup.py" "pkg");
    discriminate.
Defined.

(** X15: a [pyproject.toml] without a [build-system] table, with
    [use_pep517] not given and no editable mode, is processed with the
    default requirements and the setuptools legacy backend, with nothing
    to check, whether or not there is a [setup.py]. *)
Theorem load_without_table (fs : gmap string file)
    (pp_toml : gmap string value)
    (pyproject_toml setup_py req_name : string) :
  fs !! pyproject_toml = Some (TomlFile pp_toml) ->
  pp_toml !! "build-system" = None ->
  load_pyproject_toml fs VNone false pyproject_toml setup_py req_name
  = Resolved ([], Ok (VList [VStr "setuptools>=40.8.0"; VStr "wheel"],
                      Some (VStr "setuptools.build_meta:__legacy__", []))).
Proof.
  intros Hpp Hbs. unfold load_pyproject_toml, read_pyproject_toml, dict_get.
  rewrite (isfile_true _ _ _ Hpp), Hpp, Hbs. simpl.
  destruct (os_path_isfile fs setup_py); reflexivity.
Qed.

Lemma load_without_table_witness :
  load_pyproject_toml
    {[ "/src/pkg/pyproject.toml" :=
         TomlFile {[ "tool" := VDict ∅ ]};
       "/src/pkg/setup.py" := OtherFile ]}
    VNone false "/src/pkg/pyproject.toml" "/src/pkg/setup.py" "pkg"
  = Resolved ([], Ok (VList [VStr "setuptools>=40.8.0"; VStr "wheel"],
                      Some (VStr "setuptools.build_meta:__legacy__", []))).
Proof.
  apply (load_without_table
           {[ "/src/pkg/pyproject.toml" :=
                TomlFile {[ "tool" := VDict ∅ ]};
              "/src/pkg/setup.py" := OtherFile ]}
           {[ "tool" := VDict ∅ ]}
           "/src/pkg/pyproject.toml" "/src/pkg/setup.py" "pkg");
    reflexivity.
Defined.

(** X16: a [pyproject.toml] whose table declares a list of strings under
    "requires" and a backend under "build-backend", with [use_pep517]
    not given and no editable mode, is processed in PEP 517 mode: the
    call returns the declared list and the declared backend, with
    nothing to check and nothing logged, whether or not there is a
    [setup.py]. *)
Theorem load_declared_project (fs : gmap string file)
    (pp_toml d : gmap string value) (strs : list string) (backend : value)
    (pyproject_toml setup_py req_name : string) :
  fs !! pyproject_toml = Some (TomlFile pp_toml) ->
  pp_toml !! "build-system" = Some (VDict d) ->
  d !! "requires" = Some (VList (VStr <$> strs)) ->
  d !! "build-backend" = Some backend -> backend <> VNone ->
  load_pyproject_toml fs VNone false pyproject_toml setup_py req_name
  = Resolved ([], Ok (VList (VStr <$> strs), Some (backend, []))).
Proof.
  intros Hpp Hbs Hreq Hb Hne.
  unfold load_pyproject_toml, read_pyproject_toml, dict_get.
  rewrite (isfile_true _ _ _ Hpp), Hpp, Hbs. simpl. f_equal.
  assert (Hs : settle_use_pep517 (Some d) true (os_path_isfile fs setup_py)
                 VNone false req_name = ([], Ok (VBool true))).
  { unfold settle_use_pep517.
    rewrite (declares_backend_lookup _ _ Hb). simpl.
    destruct (os_path_isfile fs setup_py); reflexivity. }
  rewrite (resolve_settled _ _ _ _ _ _ _ _ Hs).
  rewrite (requires_found _ _ _ Hreq), is_list_of_str_fmap. simpl.
  rewrite Hb. destruct backend; try reflexivity.
  contradiction Hne. reflexivity.
Qed.

Lemma load_declared_project_witness :
  load_pyproject_toml
    {[ "/src/pkg/pyproject.toml" :=
         TomlFile {[ "build-system" :=
                       VDict {[ "requires" := VList [VStr "flit"];
                                "build-backend" := VStr "flit.buildapi" ]} ]} ]}
    VNone false "/src/pkg/pyproject.toml" "/src/pkg/setup.py" "pkg"
  = Resolved ([], Ok (VList [VStr "flit"],
                      Some (VStr "flit.buildapi", []))).
Proof.
  apply (load_declared_project
           {[ "/src/pkg/pyproject.toml" :=
                TomlFile {[ "build-system" :=
                              VDict {[ "requires" := VList [VStr "flit"];
                                       "build-backend" :=
                                         VStr "flit.buildapi" ]} ]} ]}
           {[ "build-system" :=
                VDict {[ "requires" := VList [VStr "flit"];
                         "build-backend" := VStr "flit.buildapi" ]} ]}
           {[ "requires" := VList [VStr "flit"];
              "build-backend" := VStr "flit.buildapi" ]}
           ["flit"] (VStr "flit.buildapi")
           "/src/pkg/pyproject.toml" "/src/pkg/setup.py" "pkg");
    first [reflexivity | discriminate].
Defined.
